(** * YaTracker: the request / session / error-translation core

    A shallow embedding of [yatracker/tracker/client.py]: the abstract
    [BaseClient] (constructor, [request], [_check_status]) and the concrete
    [AIOHTTPClient] ([get_session], [_make_request], [_prepare_form],
    [_prepare_file], [_process_exception], [close]).

    Python objects that are shared and mutated (the cached [ClientSession])
    live in a store indexed by object identity; methods are computations in
    a state-and-exception monad over that store. *)

From Stdlib Require Import ZArith DecimalString.
From stdpp Require Import base option strings list gmap fin_maps.

Local Open Scope string_scope.
Local Open Scope Z_scope.

(** ** Python values *)

#[local] Set Warnings "-register-all".

(** The values that cross the client's interface: JSON-like payloads, the
    argument of an exception, the result of [request]. A [dict] is kept as
    its list of items, in insertion order. *)
Inductive PyValue : Type :=
  | VNone
  | VBool (b : bool)
  | VInt (n : Z)
  | VStr (s : string)
  | VList (items : list PyValue)
  | VDict (items : list (string * PyValue)).

(** Python truth value, as used by [or]. *)
Definition truthy (v : PyValue) : bool :=
  match v with
  | VNone => false
  | VBool b => b
  | VInt n => negb (n =? 0)
  | VStr s => negb (String.eqb s "")
  | VList items => match items with [] => false | _ => true end
  | VDict items => match items with [] => false | _ => true end
  end.

(** [a or b] *)
Definition py_or (a b : PyValue) : PyValue := if truthy a then a else b.

(** [d.get(key)] on the items of a dict: [None] when the key is absent. *)
Fixpoint dict_get (items : list (string * PyValue)) (key : string) : PyValue :=
  match items with
  | [] => VNone
  | (k, v) :: rest => if String.eqb k key then v else dict_get rest key
  end.

(** [str(n)] for an [int]. *)
Definition str_of_int (n : Z) : string := NilZero.string_of_int (Z.to_int n).

(** The double-quote character, for writing JSON texts. *)
Definition dq : string := String (Ascii.ascii_of_nat 34%nat) EmptyString.

(** ** Exceptions *)

(** Modelled from the spec: the module [yatracker.exceptions] is imported by
    the client but is not part of the sources at hand; the spec's taxonomy
    (NotAuthorized, InsufficientRights, ObjectNotFound, AlreadyExists,
    Generic(message)) gives one class per constructor, [YaTrackerError]
    being the generic one, built from a single argument. [TypeError] and
    [OSError] are the built-in classes raised by [_prepare_file] and by
    opening a file; [ClientError] stands for a failure of the transport. *)
Inductive exn : Type :=
  | NotAuthorizedError
  | SufficientRightsError
  | ObjectNotFoundError
  | AlreadyExistsError
  | YaTrackerError (arg : PyValue)
  | TypeError (msg : string)
  | OSError (filename : string)
  | ClientError (msg : string).

(** The four typed errors of the status mapping. *)
Definition is_typed_error (e : exn) : bool :=
  match e with
  | NotAuthorizedError | SufficientRightsError
  | ObjectNotFoundError | AlreadyExistsError => true
  | _ => false
  end.

(** The result of a call: a returned value or a raised exception. *)
Inductive Outcome (A : Type) : Type :=
  | Ret (a : A)
  | Raise (e : exn).
Arguments Ret {A} a.
Arguments Raise {A} e.

(** ** HTTP status codes used by the client ([http.HTTPStatus]) *)

Module HTTPStatus.
Definition OK : Z := 200.
Definition MULTIPLE_CHOICES : Z := 300.
Definition UNAUTHORIZED : Z := 401.
Definition FORBIDDEN : Z := 403.
Definition NOT_FOUND : Z := 404.
Definition CONFLICT : Z := 409.
End HTTPStatus.

(** ** [BaseClient._check_status] *)

Definition _check_status (status : Z) (text : PyValue) : Outcome unit :=
  if status <? HTTPStatus.MULTIPLE_CHOICES then Ret tt
  else if status =? HTTPStatus.UNAUTHORIZED then Raise NotAuthorizedError
  else if status =? HTTPStatus.FORBIDDEN then Raise SufficientRightsError
  else if status =? HTTPStatus.NOT_FOUND then Raise ObjectNotFoundError
  else if status =? HTTPStatus.CONFLICT then Raise AlreadyExistsError
  else Raise (YaTrackerError text).

(** The status table as the specification words it: success below 300, the
    four exact matches, and the generic fallback for everything else. *)
Inductive StatusClass : Type :=
  | Success
  | NotAuthorized
  | InsufficientRights
  | ObjectNotFound
  | AlreadyExists
  | Generic.

Definition checkStatus_table (status : Z) : StatusClass :=
  if decide (status < 300) then Success
  else if decide (status = 401) then NotAuthorized
  else if decide (status = 403) then InsufficientRights
  else if decide (status = 404) then ObjectNotFound
  else if decide (status = 409) then AlreadyExists
  else Generic.

Definition outcome_of_class (c : StatusClass) (body : PyValue) : Outcome unit :=
  match c with
  | Success => Ret tt
  | NotAuthorized => Raise NotAuthorizedError
  | InsufficientRights => Raise SufficientRightsError
  | ObjectNotFound => Raise ObjectNotFoundError
  | AlreadyExists => Raise AlreadyExistsError
  | Generic => Raise (YaTrackerError body)
  end.

(** The status that each typed error stands for. *)
Definition status_of_typed (e : exn) : option Z :=
  match e with
  | NotAuthorizedError => Some 401
  | SufficientRightsError => Some 403
  | ObjectNotFoundError => Some 404
  | AlreadyExistsError => Some 409
  | _ => None
  end.

(** ** The object store and the method monad *)

(** Object identity ([id(obj)]) of a session. *)
Definition loc : Type := nat.

(** [aiohttp.ClientTimeout]; only [total] is set by the client. *)
Record ClientTimeout : Type := mkTimeout { total : Z }.

(** [aiohttp.TCPConnector(ssl=ssl.create_default_context(cafile=...))] *)
Record TCPConnector : Type := mkConnector { ssl_cafile : string }.

(** The state of an [aiohttp.ClientSession] object: what it was built with
    and whether it has been closed. *)
Record ClientSession : Type := mkSession {
  base_url : string;
  connector : TCPConnector;
  headers : gmap string string;
  timeout : ClientTimeout;
  closed : bool
}.

(** The fields set by [BaseClient.__init__]. *)
Record BaseClient : Type := mkBase {
  _api_version : string;
  _base_url : string;
  _headers : gmap string string;
  _session : option loc
}.

(** An [AIOHTTPClient] instance: the inherited fields and [_timeout]. *)
Record AIOHTTPClient : Type := mkClient {
  base :> BaseClient;
  _timeout : ClientTimeout
}.

(** [self._session = s] *)
Definition set_session (s : option loc) (c : AIOHTTPClient) : AIOHTTPClient :=
  mkClient (mkBase (_api_version c) (_base_url c) (_headers c) s) (_timeout c).

(** One HTTP call as handed to [session.request]. *)
Record BytesPayload : Type := mkPayload {
  value : string;
  content_type : string
}.

Record HttpRequest : Type := mkRequest {
  req_method : string;
  req_url : string;
  req_params : PyValue;
  req_data : option BytesPayload
}.

(** What comes back from one HTTP call: the status and the body text of the
    server's reply, or a failure of the transport itself (no reply). *)
Inductive Reply : Type :=
  | Response (status : Z) (text : string)
  | TransportFailure (msg : string).

(** What the program does to the outside world, in order. *)
Inductive Event : Type :=
  | EvSessionCreated (l : loc)
  | EvRequest (l : loc) (r : HttpRequest)
  | EvSessionClosed (l : loc)
  | EvSleep (milliseconds : Z).

(** The client instance, the sessions that exist, and the events so far. *)
Record Machine : Type := mkMachine {
  self : AIOHTTPClient;
  heap : gmap loc ClientSession;
  trace : list Event
}.

(** A method call: it returns or raises, and leaves a new state either way. *)
Definition M (A : Type) : Type := Machine -> Outcome A * Machine.

Definition ret {A} (a : A) : M A := fun m => (Ret a, m).
Definition raise {A} (e : exn) : M A := fun m => (Raise e, m).
Definition bind {A B} (c : M A) (k : A -> M B) : M B :=
  fun m => match c m with
           | (Ret a, m') => k a m'
           | (Raise e, m') => (Raise e, m')
           end.
Definition lift {A} (o : Outcome A) : M A := fun m => (o, m).
Definition emit (e : Event) : M unit :=
  fun m => (Ret tt, mkMachine (self m) (heap m) (trace m ++ [e])).
Definition get_self : M AIOHTTPClient := fun m => (Ret (self m), m).

Declare Scope method_scope.
Delimit Scope method_scope with method.
Notation "'do' x <- c ; k" := (bind c (fun x => k))
  (at level 10, x pattern, c at level 100, k at level 200) : method_scope.
Notation "c ;; k" := (bind c (fun _ => k))
  (at level 100, k at level 200, right associativity) : method_scope.

(** ** Construction *)

(** [org_id: str | int] *)
Inductive OrgId : Type :=
  | OrgStr (s : string)
  | OrgInt (n : Z).

(** [str(org_id)] *)
Definition py_str (o : OrgId) : string :=
  match o with
  | OrgStr s => s
  | OrgInt n => str_of_int n
  end.

(** [x or default] for an optional string: [None] and [""] are falsy. *)
Definition or_default (x : option string) (d : string) : string :=
  match x with
  | Some s => if String.eqb s "" then d else s
  | None => d
  end.

(** [d.setdefault(key, v)] on the headers, for its effect on [d]. *)
Definition setdefault (key v : string) (d : gmap string string)
  : gmap string string :=
  match d !! key with
  | Some _ => d
  | None => <[key := v]> d
  end.

Definition DEFAULT_API_HOST : string := "https://api.tracker.yandex.net".
Definition DEFAULT_API_VERSION : string := "v2".

(** [BaseClient.__init__]. [headers.copy() if headers else {}]: a missing or
    empty mapping gives the empty dict, otherwise a copy, so the caller's
    own mapping is never written to. *)
Definition BaseClient__init__ (org_id : OrgId) (token : string)
    (headers : option (gmap string string))
    (api_host api_version : option string) : BaseClient :=
  let _headers0 : gmap string string :=
    match headers with
    | Some h => if decide (h = ∅) then ∅ else h
    | None => ∅
    end in
  let _headers1 := setdefault "X-Org-Id" (py_str org_id) _headers0 in
  let _headers2 := setdefault "Authorization" ("OAuth " +:+ token) _headers1 in
  mkBase (or_default api_version DEFAULT_API_VERSION)
         (or_default api_host DEFAULT_API_HOST)
         _headers2
         None.

(** [AIOHTTPClient.__init__]; [timeout] is [kwargs.get("timeout")]. *)
Definition AIOHTTPClient__init__ (org_id : OrgId) (token : string)
    (headers : option (gmap string string))
    (api_host api_version : option string)
    (timeout : option ClientTimeout) : AIOHTTPClient :=
  mkClient (BaseClient__init__ org_id token headers api_host api_version)
           (match timeout with Some t => t | None => mkTimeout 0 end).

(** A freshly constructed client in a world with no sessions. *)
Definition boot (c : AIOHTTPClient) : Machine := mkMachine c ∅ [].

(** ** File references and multipart forms *)

(** An open binary stream ([io.IOBase]): the reader that [open("rb")]
    returns for a path, or a stream the caller already holds. *)
Inductive IOBase : Type :=
  | BufferedReader (name : string)
  | UserStream (cls : string) (id : nat).

(** What a caller may pass as [file]. [OInstance cls] is an instance of a
    class named [cls] that derives from none of [str], [io.IOBase], [Path]. *)
Inductive PyObject : Type :=
  | OStr (s : string)
  | OPath (p : string)
  | OStream (f : IOBase)
  | OInt (n : Z)
  | OBytes (b : string)
  | ONone
  | OInstance (cls : string).

(** [type(o).__name__] *)
Definition type_name (o : PyObject) : string :=
  match o with
  | OStr _ => "str"
  | OPath _ => "PosixPath"
  | OStream (BufferedReader _) => "BufferedReader"
  | OStream (UserStream cls _) => cls
  | OInt _ => "int"
  | OBytes _ => "bytes"
  | ONone => "NoneType"
  | OInstance cls => cls
  end.

(** [isinstance(o, (str, io.IOBase, Path))] *)
Definition is_file_reference (o : PyObject) : bool :=
  match o with
  | OStr _ | OPath _ | OStream _ => true
  | _ => false
  end.

(** [aiohttp.FormData]: the fields added so far, as (name, value). *)
Definition FormData : Type := list (string * IOBase).

(** [form.add_field(name, value)] *)
Definition add_field (name : string) (v : IOBase) (form : FormData) : FormData :=
  (form ++ [(name, v)])%list.

(** [session.closed = True] *)
Definition mark_closed (s : ClientSession) : ClientSession :=
  mkSession (base_url s) (connector s) (headers s) (timeout s) true.

Section Client.

(** *** The collaborators outside the module *)

(** The HTTP transport behind [session.request]. *)
Variable transport : ClientSession -> HttpRequest -> Reply.

(** [msgspec.json.Encoder().encode] *)
Variable encode : PyValue -> string.

(** [certifi.where()] *)
Variable certifi_where : string.

(** Which paths the file system lets the process open for reading. *)
Variable readable : string -> bool.

Local Open Scope method_scope.

(** *** Session manager *)

(** The constructor call of [get_session], with the new object stored
    under an identity that no existing session has. *)
Definition new_session : M loc :=
  fun m =>
    let l := fresh (dom (heap m)) in
    let session :=
      mkSession (_base_url (self m)) (mkConnector certifi_where)
                (_headers (self m)) (_timeout (self m)) false in
    (Ret l,
     mkMachine (set_session (Some l) (self m))
               (<[l := session]> (heap m))
               (trace m ++ [EvSessionCreated l])).

(** [AIOHTTPClient.get_session] *)
Definition get_session : M loc :=
  fun m =>
    match _session (self m) with
    | Some l =>
        match heap m !! l with
        | Some s => if closed s then new_session m else (Ret l, m)
        | None => new_session m
        end
    | None => new_session m
    end.

(** [await session.close()] *)
Definition session_close (l : loc) : M unit :=
  fun m =>
    (Ret tt,
     mkMachine (self m)
               (alter mark_closed l (heap m))
               (trace m ++ [EvSessionClosed l])).

(** [await asyncio.sleep(0.25)], in milliseconds. *)
Definition sleep_quarter_second : M unit := emit (EvSleep 250).

(** [AIOHTTPClient.close] *)
Definition close : M unit :=
  fun m =>
    match _session (self m) with
    | None => (Ret tt, m)
    | Some l =>
        match heap m !! l with
        | None => (Ret tt, m)
        | Some s =>
            if closed s then (Ret tt, m)
            else (session_close l ;; sleep_quarter_second) m
        end
    end.

(** *** Request executor *)

(** [AIOHTTPClient._process_exception] *)
Definition _process_exception (status : Z) (data : PyValue) : exn :=
  let text :=
    match data with
    | VDict items => py_or (dict_get items "message") (dict_get items "detail")
    | _ => data
    end in
  YaTrackerError text.

(** [async with session.request(method, url, **kwargs) as response]
    followed by [response.status] and [await response.text()]. A closed
    session refuses the call. *)
Definition session_request (l : loc) (r : HttpRequest) : M (Z * string) :=
  fun m =>
    match heap m !! l with
    | Some s =>
        if closed s then (Raise (ClientError "Session is closed"), m)
        else (emit (EvRequest l r) ;;
              match transport s r with
              | Response status text => ret (status, text)
              | TransportFailure msg => raise (ClientError msg)
              end) m
    | None => (Raise (ClientError "Session is closed"), m)
    end.

(** [AIOHTTPClient._make_request] *)
Definition _make_request (method url : string) (params : PyValue)
    (data : option BytesPayload) : M (Z * string) :=
  do session <- get_session;
  do (status, text) <- session_request session
                          (mkRequest method url params data);
  if negb (status =? 200)
  then raise (_process_exception status (VStr text))
  else ret (status, text).

(** *** Facade *)

(** [BaseClient.request], with [_make_request] bound to the aiohttp one,
    for a call that passes no extra keyword arguments ([request_kw] below
    has them). *)
Definition request (method uri : string) (params payload : PyValue)
    : M PyValue :=
  do c <- get_self;
  let bytes_payload := mkPayload (encode payload) "application/json" in
  do (status, body) <- _make_request method
                          ("/" +:+ _api_version c +:+ uri)
                          params (Some bytes_payload);
  lift (_check_status status (VStr body)) ;;
  ret (VStr body).

(** The session that the next request of the client goes through. *)
Definition session_in_use (m : Machine) : option ClientSession :=
  match get_session m with
  | (Ret l, m1) => heap m1 !! l
  | (Raise _, _) => None
  end.

(** The HTTP call that the facade hands to the executor. *)
Definition facade_call (m : Machine) (method uri : string)
    (params payload : PyValue) : HttpRequest :=
  mkRequest method ("/" +:+ _api_version (self m) +:+ uri) params
            (Some (mkPayload (encode payload) "application/json")).

(** *** Histories *)

(** What may happen to a client between two observations: its own methods
    are called, or some holder of a session object closes it directly. *)
Inductive Call : Type :=
  | CallGetSession
  | CallClose
  | CallRequest (method uri : string) (params payload : PyValue)
  | CallSessionClose (l : loc).

(** The state after one call, whether it returned or raised. *)
Definition step (c : Call) (m : Machine) : Machine :=
  match c with
  | CallGetSession => (get_session m).2
  | CallClose => (close m).2
  | CallRequest method uri params payload =>
      (request method uri params payload m).2
  | CallSessionClose l => (session_close l m).2
  end.

(** The state after a sequence of calls. *)
Definition run (calls : list Call) (m : Machine) : Machine :=
  fold_left (fun m c => step c m) calls m.

(** *** Payload encoder: file uploads *)

(** [Path(p).open("rb")] *)
Definition open_rb (p : string) : Outcome IOBase :=
  if readable p then Ret (BufferedReader p) else Raise (OSError p).

(** [AIOHTTPClient._prepare_file] *)
Definition _prepare_file (file : PyObject) : Outcome IOBase :=
  match file with
  | OStr s => open_rb s
  | OStream f => Ret f
  | OPath p => open_rb p
  | _ => Raise (TypeError ("Not supported file type: `" +:+ type_name file +:+ "`"))
  end.

(** [AIOHTTPClient._prepare_form] *)
Definition _prepare_form (file : PyObject) : Outcome FormData :=
  match _prepare_file file with
  | Ret f => Ret (add_field "file" f [])
  | Raise e => Raise e
  end.

End Client.

(** ** Predicates on states *)

(** The client holds a session object that has not been closed. *)
Definition has_open_session (m : Machine) : bool :=
  match _session (self m) with
  | Some l =>
      match heap m !! l with
      | Some s => negb (closed s)
      | None => false
      end
  | None => false
  end.

(** A session carries the configuration of the client. *)
Definition bound_to (c : AIOHTTPClient) (s : ClientSession) : Prop :=
  base_url s = _base_url c ∧ headers s = _headers c ∧ timeout s = _timeout c.

(** The session the client refers to exists and was built from the client's
    own configuration: true at construction and kept by every method. *)
Definition session_inv (m : Machine) : Prop :=
  ∀ l, _session (self m) = Some l →
       ∃ s, heap m !! l = Some s ∧ bound_to (self m) s.

(** The mapping that the caller supplied, empty when there is none. *)
Definition supplied (headers : option (gmap string string))
  : gmap string string := default ∅ headers.

(** ** A concrete client, for the examples *)

Definition example_client : AIOHTTPClient :=
  AIOHTTPClient__init__ (OrgInt 42) "secret" None None None None.

Definition example_cafile : string := "/etc/ssl/cacert.pem".

(** The example client after its first [get_session]. *)
Definition example_connected : Machine :=
  (get_session example_cafile (boot example_client)).2.

Definition example_session : ClientSession :=
  mkSession (_base_url example_client) (mkConnector example_cafile)
            (_headers example_client) (_timeout example_client) false.

(** ** Replies of the server and a file system, for the examples *)

(** The text [{"key":"TEST-1"}]. *)
Definition body_issue : string :=
  "{" +:+ dq +:+ "key" +:+ dq +:+ ":" +:+ dq +:+ "TEST-1" +:+ dq +:+ "}".

(** The text [{"message":"not found"}]. *)
Definition body_not_found : string :=
  "{" +:+ dq +:+ "message" +:+ dq +:+ ":" +:+ dq +:+ "not found" +:+ dq +:+ "}".

(** A server that answers every call with the same status and body. *)
Definition server_replying (status : Z) (text : string)
  : ClientSession -> HttpRequest -> Reply :=
  fun _ _ => Response status text.

(** The encoder on the only payload the examples send: [None]. *)
Definition encode_none (payload : PyValue) : string := "null".

(** The file system of the examples: one readable file. *)
Definition only_report_readable (p : string) : bool :=
  String.eqb p "report.pdf".

(** ** Facade calls with extra keyword arguments *)

(** A value passed by keyword through [**kwargs]. *)
Inductive KwValue : Type :=
  | KwPy (v : PyValue)
  | KwForm (form : FormData)
  | KwObject (cls : string).

(** The keywords that [BaseClient.request] writes out in its call of
    [_make_request]. *)
Definition explicit_keywords : list string :=
  ["method"; "url"; "params"; "data"].

(** The first key of [kwargs] that repeats one of the written keywords: the
    call [f(method=..., url=..., params=..., data=..., **kwargs)] raises
    [TypeError] for it before [f] is entered. *)
Fixpoint duplicate_keyword (kwargs : list (string * KwValue)) : option string :=
  match kwargs with
  | [] => None
  | (k, _) :: rest =>
      if existsb (String.eqb k) explicit_keywords then Some k
      else duplicate_keyword rest
  end.

Section KeywordArguments.

(** [session.request] seen with the keyword arguments that [_make_request]
    forwards to it besides [params] and [data]. *)
Variable transport_kw :
  list (string * KwValue) -> ClientSession -> HttpRequest -> Reply.
Variable encode : PyValue -> string.
Variable certifi_where : string.

Local Open Scope method_scope.

(** [BaseClient.request] with its [**kwargs]: the payload is encoded, the
    call of [_make_request] is refused when [kwargs] repeats a keyword, and
    otherwise [_make_request] forwards [kwargs] untouched to
    [session.request]. *)
Definition request_kw (method uri : string) (params payload : PyValue)
    (kwargs : list (string * KwValue)) : M PyValue :=
  do c <- get_self;
  let bytes_payload := mkPayload (encode payload) "application/json" in
  match duplicate_keyword kwargs with
  | Some k =>
      raise (TypeError ("_make_request() got multiple values for keyword argument '"
                        +:+ k +:+ "'"))
  | None =>
      do (status, body) <- _make_request (transport_kw kwargs) certifi_where
                              method ("/" +:+ _api_version c +:+ uri)
                              params (Some bytes_payload);
      lift (_check_status status (VStr body)) ;;
      ret (VStr body)
  end.

End KeywordArguments.

(** A transport for the examples that answers 200 whatever the keywords. *)
Definition server_replying_kw (status : Z) (text : string)
  : list (string * KwValue) -> ClientSession -> HttpRequest -> Reply :=
  fun _ _ _ => Response status text.

(** ** Observations on states *)

(** The configuration of a client: every field but the session slot. *)
Definition config_of (c : AIOHTTPClient)
  : string * string * gmap string string * ClientTimeout :=
  (_api_version c, _base_url c, _headers c, _timeout c).

(** Every session of the store that is not closed is the one the client
    holds. *)
Definition only_current_open (m : Machine) : Prop :=
  ∀ l s, heap m !! l = Some s → closed s = false → _session (self m) = Some l.

(** * Properties *)

(** ** Status translator *)

Lemma check_status_table (status : Z) (text : PyValue) :
  _check_status status text = outcome_of_class (checkStatus_table status) text.
Proof.
  unfold _check_status, checkStatus_table, HTTPStatus.MULTIPLE_CHOICES,
    HTTPStatus.UNAUTHORIZED, HTTPStatus.FORBIDDEN, HTTPStatus.NOT_FOUND,
    HTTPStatus.CONFLICT.
  destruct (Z.ltb_spec status 300); [by rewrite decide_True|].
  rewrite decide_False by lia.
  repeat match goal with
         | |- context [?a =? ?b] =>
             destruct (Z.eqb_spec a b);
             [by rewrite decide_True | rewrite decide_False by done]
         end.
  done.
Qed.

Lemma check_status_success (status : Z) (text : PyValue) :
  status < 300 → _check_status status text = Ret tt.
Proof.
  intros H. rewrite check_status_table. unfold checkStatus_table.
  by rewrite decide_True.
Qed.

Lemma check_status_200 (text : PyValue) : _check_status 200 text = Ret tt.
Proof. reflexivity. Qed.

Lemma check_status_generic (status : Z) (text : PyValue) :
  300 ≤ status → status ≠ 401 → status ≠ 403 → status ≠ 404 → status ≠ 409 →
  _check_status status text = Raise (YaTrackerError text).
Proof.
  intros. rewrite check_status_table. unfold checkStatus_table.
  by repeat (rewrite decide_False by lia).
Qed.

Lemma check_status_typed (status : Z) (text : PyValue) (e : exn) :
  is_typed_error e = true →
  _check_status status text = Raise e ↔ status_of_typed e = Some status.
Proof.
  intros He. rewrite check_status_table. unfold checkStatus_table.
  repeat case_decide; subst; destruct e; simpl in *;
    split; intros Heq; try done; try (injection Heq as Heq; lia).
Qed.

(** C1: [_check_status] is the ordered status table of the specification.
    A status below 300 returns without raising; 401, 403, 404 and 409 raise
    NotAuthorized, InsufficientRights, ObjectNotFound and AlreadyExists, and
    these four are raised for no other status; every remaining status from
    300 up raises the generic error carrying exactly the text it was given.
    Being a function of the status and the text alone, it yields one result
    per status and cannot alter the body. *)
Theorem check_status_classification (status : Z) (text : PyValue) :
  _check_status status text = outcome_of_class (checkStatus_table status) text
  ∧ (status < 300 → _check_status status text = Ret tt)
  ∧ _check_status 401 text = Raise NotAuthorizedError
  ∧ _check_status 403 text = Raise SufficientRightsError
  ∧ _check_status 404 text = Raise ObjectNotFoundError
  ∧ _check_status 409 text = Raise AlreadyExistsError
  ∧ (∀ e, is_typed_error e = true →
          _check_status status text = Raise e ↔ status_of_typed e = Some status)
  ∧ (300 ≤ status → status ≠ 401 → status ≠ 403 → status ≠ 404 →
     status ≠ 409 → _check_status status text = Raise (YaTrackerError text)).
Proof.
  split; [apply check_status_table|].
  split; [apply check_status_success|].
  do 4 (split; [reflexivity|]).
  split; [intros e; apply check_status_typed|].
  apply check_status_generic.
Qed.

Lemma check_status_classification_witness :
  _check_status 299 (VStr "ok") = Ret tt
  ∧ _check_status 500 (VStr "internal error")
    = Raise (YaTrackerError (VStr "internal error"))
  ∧ status_of_typed ObjectNotFoundError = Some 404.
Proof.
  split; [|split].
  - apply (check_status_classification 299 (VStr "ok")). lia.
  - apply (check_status_classification 500 (VStr "internal error")); lia.
  - apply (check_status_classification 404 (VStr "")); reflexivity.
Defined.

(** ** Session manager *)

Section SessionManager.

Variable certifi_where : string.

Abbreviation get_session' := (get_session certifi_where).
Abbreviation new_session' := (new_session certifi_where).

Lemma get_session_open (m : Machine) (l : loc) (s : ClientSession) :
  _session (self m) = Some l → heap m !! l = Some s → closed s = false →
  get_session' m = (Ret l, m).
Proof.
  intros Hl Hs Hc. unfold get_session. by rewrite Hl, Hs, Hc.
Qed.

Lemma get_session_not_open (m : Machine) :
  has_open_session m = false → get_session' m = new_session' m.
Proof.
  unfold has_open_session, get_session.
  destruct (_session (self m)) as [l|]; [|done].
  destruct (heap m !! l) as [s|]; [|done].
  by destruct (closed s).
Qed.

Lemma new_session_fresh (m : Machine) :
  fresh (dom (heap m)) ∉ dom (heap m).
Proof. apply is_fresh. Qed.

Lemma new_session_result (m : Machine) :
  let l := fresh (dom (heap m)) in
  let s := mkSession (_base_url (self m)) (mkConnector certifi_where)
                     (_headers (self m)) (_timeout (self m)) false in
  new_session' m
  = (Ret l, mkMachine (set_session (Some l) (self m)) (<[l := s]> (heap m))
                      (trace m ++ [EvSessionCreated l])).
Proof. reflexivity. Qed.

Lemma new_session_opens (m : Machine) :
  has_open_session (new_session' m).2 = true.
Proof.
  unfold has_open_session. simpl. by rewrite lookup_insert_eq.
Qed.

Lemma get_session_opens (m : Machine) :
  ∃ l s, (get_session' m).1 = Ret l
         ∧ _session (self (get_session' m).2) = Some l
         ∧ heap (get_session' m).2 !! l = Some s
         ∧ closed s = false.
Proof.
  destruct (has_open_session m) eqn:Hopen.
  - unfold has_open_session in Hopen.
    destruct (_session (self m)) as [l|] eqn:Hl; [|done].
    destruct (heap m !! l) as [s|] eqn:Hs; [|done].
    destruct (closed s) eqn:Hc; [done|].
    exists l, s. by rewrite (get_session_open m l s).
  - rewrite get_session_not_open by done.
    eexists _, _. simpl. split; [done|]. split; [done|].
    split; [apply lookup_insert_eq|done].
Qed.

Lemma close_result (m : Machine) : (close m).1 = Ret tt.
Proof.
  unfold close.
  destruct (_session (self m)) as [l|]; [|done].
  destruct (heap m !! l) as [s|]; [|done].
  by destruct (closed s).
Qed.

Lemma close_open (m : Machine) (l : loc) (s : ClientSession) :
  _session (self m) = Some l → heap m !! l = Some s → closed s = false →
  close m = (Ret tt,
             mkMachine (self m) (<[l := mark_closed s]> (heap m))
                       (trace m ++ [EvSessionClosed l; EvSleep 250])).
Proof.
  intros Hl Hs Hc. unfold close. rewrite Hl, Hs, Hc.
  unfold bind, session_close, sleep_quarter_second, emit, mark_closed. simpl.
  do 2 f_equal.
  - apply map_eq. intros i. rewrite lookup_alter, lookup_insert.
    destruct (decide (l = i)) as [->|]; [by rewrite Hs|done].
  - by rewrite <- app_assoc.
Qed.

Lemma close_not_open (m : Machine) :
  has_open_session m = false → close m = (Ret tt, m).
Proof.
  unfold has_open_session, close.
  destruct (_session (self m)) as [l|]; [|done].
  destruct (heap m !! l) as [s|]; [|done].
  by destruct (closed s).
Qed.

Lemma close_leaves_no_open_session (m : Machine) :
  has_open_session (close m).2 = false.
Proof.
  destruct (has_open_session m) eqn:Hopen.
  - unfold has_open_session in Hopen.
    destruct (_session (self m)) as [l|] eqn:Hl; [|done].
    destruct (heap m !! l) as [s|] eqn:Hs; [|done].
    destruct (closed s) eqn:Hc; [done|].
    rewrite (close_open m l s) by done.
    unfold has_open_session. simpl. by rewrite Hl, lookup_insert_eq.
  - by rewrite close_not_open.
Qed.

Lemma close_keeps_self (m : Machine) : self (close m).2 = self m.
Proof.
  unfold close.
  destruct (_session (self m)) as [l|]; [|done].
  destruct (heap m !! l) as [s|]; [|done].
  by destruct (closed s).
Qed.

Lemma close_keeps_dom (m : Machine) : dom (heap (close m).2) = dom (heap m).
Proof.
  unfold close.
  destruct (_session (self m)) as [l|]; [|done].
  destruct (heap m !! l) as [s|]; [|done].
  destruct (closed s); [done|]. simpl. apply dom_alter_L.
Qed.

(** *** The invariant *)

Lemma session_inv_boot (c : AIOHTTPClient) :
  _session c = None → session_inv (boot c).
Proof. intros Hc l Hl. simpl in Hl. congruence. Qed.

Lemma session_inv_new_session (m : Machine) :
  session_inv (new_session' m).2.
Proof.
  intros l Hl. simpl in *. injection Hl as <-.
  eexists. split; [apply lookup_insert_eq|]. by repeat split.
Qed.

Lemma session_inv_get_session (m : Machine) :
  session_inv m → session_inv (get_session' m).2.
Proof.
  intros Hinv. destruct (has_open_session m) eqn:Hopen.
  - unfold has_open_session in Hopen.
    destruct (_session (self m)) as [l|] eqn:Hl; [|done].
    destruct (heap m !! l) as [s|] eqn:Hs; [|done].
    destruct (closed s) eqn:Hc; [done|].
    by rewrite (get_session_open m l s).
  - rewrite get_session_not_open by done. apply session_inv_new_session.
Qed.

Lemma session_inv_close (m : Machine) :
  session_inv m → session_inv (close m).2.
Proof.
  intros Hinv l Hl. rewrite close_keeps_self in *.
  destruct (Hinv l Hl) as (s & Hs & Hb).
  destruct (closed s) eqn:Hc.
  - rewrite close_not_open; [by exists s|].
    unfold has_open_session. by rewrite Hl, Hs, Hc.
  - rewrite (close_open m l s) by done. simpl.
    exists (mark_closed s). split; [apply lookup_insert_eq|done].
Qed.

End SessionManager.

(** C6: two [get_session] calls in a row, with nothing in between, return
    the same session object, and the second call changes nothing: no session
    is constructed and no event happens. More generally, whenever the client
    holds a session that is not closed, [get_session] returns that very
    object and leaves the whole state as it was. *)
Theorem get_session_identity (certifi_where : string) (m : Machine) :
  (∃ l, (get_session certifi_where m).1 = Ret l
        ∧ get_session certifi_where (get_session certifi_where m).2
          = (Ret l, (get_session certifi_where m).2))
  ∧ (∀ l s, _session (self m) = Some l → heap m !! l = Some s →
            closed s = false → get_session certifi_where m = (Ret l, m)).
Proof.
  split.
  - destruct (get_session_opens certifi_where m) as (l & s & Hr & Hl & Hs & Hc).
    exists l. split; [done|]. by apply get_session_open with s.
  - intros l s. apply get_session_open.
Qed.

(** C7: once [close] has run, or whenever the client's session is found
    closed, the next [get_session] constructs a session: it is stored under
    an identity that no existing session has, so it is not the discarded
    one, it is open, and it is bound to the client's base URL, default
    headers and timeout, the same ones the discarded session was bound to. *)
Theorem get_session_after_close_is_new (certifi_where : string)
    (m m0 : Machine) :
  session_inv m →
  m0 = (close m).2 ∨ (m0 = m ∧ has_open_session m = false) →
  ∃ l s,
    get_session certifi_where m0
    = (Ret l, mkMachine (set_session (Some l) (self m0)) (<[l := s]> (heap m0))
                        (trace m0 ++ [EvSessionCreated l]))
    ∧ (l ∉ dom (heap m))
    ∧ _session (self m) ≠ Some l
    ∧ closed s = false
    ∧ bound_to (self m) s
    ∧ (∀ l0 s0, _session (self m) = Some l0 → heap m !! l0 = Some s0 →
                l ≠ l0 ∧ base_url s = base_url s0 ∧ headers s = headers s0
                ∧ timeout s = timeout s0).
Proof.
  intros Hinv Hm0.
  assert (has_open_session m0 = false ∧ self m0 = self m
          ∧ dom (heap m0) = dom (heap m)) as (Hopen & Hself & Hdom).
  { destruct Hm0 as [-> | [-> Hopen]]; [|done].
    split; [apply close_leaves_no_open_session|].
    split; [apply close_keeps_self | apply close_keeps_dom]. }
  pose proof (new_session_fresh m0) as Hfresh.
  rewrite Hdom in Hfresh.
  assert (∀ l0, _session (self m) = Some l0 → fresh (dom (heap m0)) ≠ l0)
    as Hne.
  { intros l0 Hl0 Heq. destruct (Hinv l0 Hl0) as (s0 & Hs0 & _).
    apply Hfresh. rewrite Hdom in Heq. rewrite Heq.
    apply elem_of_dom. by exists s0. }
  eexists _, _. split.
  { rewrite (get_session_not_open certifi_where m0 Hopen).
    apply new_session_result. }
  rewrite Hdom, Hself. split; [done|].
  split. { intros Heq. by apply (Hne _ Heq); rewrite Hdom. }
  split; [done|]. split; [by repeat split|].
  intros l0 s0 Hl0 Hs0. split. { rewrite <- Hdom. by apply Hne. }
  destruct (Hinv l0 Hl0) as (s0' & Hs0' & Hb1 & Hb2 & Hb3).
  simpl. by simplify_eq.
Qed.

(** C8: [close] never raises and is idempotent. With no session, or with a
    session that is already closed, it returns at once and changes nothing;
    with an open session it closes it and then sleeps a quarter of a second.
    After any [close], a second [close] is such a no-op, and so is [close]
    on a client that never made a request. *)
Theorem close_idempotent_never_fails (m : Machine) :
  (close m).1 = Ret tt
  ∧ close (close m).2 = (Ret tt, (close m).2)
  ∧ (_session (self m) = None → close m = (Ret tt, m))
  ∧ (∀ l s, _session (self m) = Some l → heap m !! l = Some s →
            closed s = true → close m = (Ret tt, m))
  ∧ (∀ l s, _session (self m) = Some l → heap m !! l = Some s →
            closed s = false →
            close m = (Ret tt,
                       mkMachine (self m) (<[l := mark_closed s]> (heap m))
                                 (trace m ++ [EvSessionClosed l; EvSleep 250])))
  ∧ (∀ c, m = boot c → _session c = None → close m = (Ret tt, m)).
Proof.
  split; [apply close_result|].
  split; [apply close_not_open, close_leaves_no_open_session|].
  split. { intros Hl. apply close_not_open. unfold has_open_session.
           by rewrite Hl. }
  split. { intros l s Hl Hs Hc. apply close_not_open.
           unfold has_open_session. by rewrite Hl, Hs, Hc. }
  split; [intros l s; apply close_open|].
  intros c -> Hc. apply close_not_open. unfold has_open_session. simpl.
  by rewrite Hc.
Qed.

Lemma example_connected_session :
  _session (self example_connected) = Some 0%nat
  ∧ heap example_connected !! 0%nat = Some example_session.
Proof. split; [reflexivity|]. vm_compute. reflexivity. Qed.

Lemma get_session_identity_witness :
  get_session example_cafile example_connected = (Ret 0%nat, example_connected).
Proof.
  apply (get_session_identity example_cafile example_connected)
    with example_session.
  - reflexivity.
  - vm_compute. reflexivity.
  - reflexivity.
Defined.

Lemma get_session_after_close_is_new_witness :
  ∃ l, (get_session example_cafile (close example_connected).2).1 = Ret l
       ∧ l ≠ 0%nat.
Proof.
  destruct (get_session_after_close_is_new example_cafile example_connected
              (close example_connected).2) as (l & s & Hget & _ & Hne & _).
  - apply session_inv_get_session, session_inv_boot. reflexivity.
  - left. reflexivity.
  - exists l. split.
    + rewrite Hget. reflexivity.
    + intros ->. apply Hne. reflexivity.
Defined.

Lemma close_idempotent_never_fails_witness :
  close example_connected
  = (Ret tt,
     mkMachine (self example_connected)
               (<[0%nat := mark_closed example_session]> (heap example_connected))
               (trace example_connected
                  ++ [EvSessionClosed 0%nat; EvSleep 250]))
  ∧ close (boot example_client) = (Ret tt, boot example_client).
Proof.
  split.
  - apply (close_idempotent_never_fails example_connected).
    + reflexivity.
    + vm_compute. reflexivity.
    + reflexivity.
  - apply (close_idempotent_never_fails (boot example_client))
      with example_client; reflexivity.
Defined.

(** ** Request executor and facade *)

Section Requests.

Variable transport : ClientSession -> HttpRequest -> Reply.
Variable encode : PyValue -> string.
Variable certifi_where : string.

Abbreviation get_session' := (get_session certifi_where).
Abbreviation _make_request' := (_make_request transport certifi_where).
Abbreviation request' := (request transport encode certifi_where).
Abbreviation session_in_use := (session_in_use certifi_where).
Abbreviation facade_call := (facade_call encode).

Lemma session_in_use_open (m : Machine) :
  ∃ l s, get_session' m = (Ret l, (get_session' m).2)
         ∧ session_in_use m = Some s
         ∧ heap (get_session' m).2 !! l = Some s
         ∧ closed s = false.
Proof.
  destruct (get_session_opens certifi_where m) as (l & s & Hr & _ & Hs & Hc).
  exists l, s. unfold session_in_use.
  destruct (get_session' m) as [r m1]. simpl in *. subst r. done.
Qed.

Lemma get_session_keeps_api_version (m : Machine) :
  _api_version (self (get_session' m).2) = _api_version (self m).
Proof.
  unfold get_session.
  destruct (_session (self m)) as [l|]; [|done].
  destruct (heap m !! l) as [s|]; [|done].
  by destruct (closed s).
Qed.

(** What the executor does, by the reply of the transport. *)
Lemma make_request_cases (m : Machine) (method url : string)
    (params : PyValue) (data : option BytesPayload) (s : ClientSession) :
  session_in_use m = Some s →
  (_make_request' method url params data m).1
  = match transport s (mkRequest method url params data) with
    | Response status text =>
        if status =? 200 then Ret (status, text)
        else Raise (YaTrackerError (VStr text))
    | TransportFailure msg => Raise (ClientError msg)
    end.
Proof.
  intros Huse.
  destruct (session_in_use_open m) as (l & s' & Hget & Huse' & Hs & Hc).
  rewrite Huse in Huse'. injection Huse' as <-.
  unfold _make_request, bind. rewrite Hget.
  unfold session_request. rewrite Hs, Hc. unfold bind, emit. simpl.
  destruct (transport s _) as [status text | msg]; simpl; [|done].
  by destruct (status =? 200).
Qed.

Lemma make_request_returns_200 (m m' : Machine) (method url : string)
    (params : PyValue) (data : option BytesPayload) (status : Z)
    (text : string) :
  _make_request' method url params data m = (Ret (status, text), m') →
  status = 200.
Proof.
  intros Hrun.
  destruct (session_in_use_open m) as (l & s & _ & Huse & _).
  pose proof (make_request_cases m method url params data s Huse) as Hc.
  rewrite Hrun in Hc. simpl in Hc.
  destruct (transport s _) as [st tx | msg]; [|done].
  destruct (Z.eqb_spec st 200); [|done]. by simplify_eq.
Qed.

(** What the facade does, by the reply of the transport. *)
Lemma request_cases (m : Machine) (method uri : string)
    (params payload : PyValue) (s : ClientSession) :
  session_in_use m = Some s →
  (request' method uri params payload m).1
  = match transport s (facade_call m method uri params payload) with
    | Response status text =>
        if status =? 200 then Ret (VStr text)
        else Raise (YaTrackerError (VStr text))
    | TransportFailure msg => Raise (ClientError msg)
    end.
Proof.
  intros Huse.
  pose proof (make_request_cases m method
                ("/" +:+ _api_version (self m) +:+ uri) params
                (Some (mkPayload (encode payload) "application/json"))
                s Huse) as Hc.
  unfold request, bind at 1, get_self. unfold bind at 1.
  unfold facade_call.
  destruct (_make_request' _ _ _ _ m) as [[[status text]|e] m1] eqn:Hrun;
    simpl in Hc.
  - pose proof (make_request_returns_200 _ _ _ _ _ _ _ _ Hrun) as ->.
    destruct (transport s _) as [st tx | msg]; [|done].
    destruct (Z.eqb_spec st 200); [|done]. simplify_eq. reflexivity.
  - simpl. destruct (transport s _) as [st tx | msg]; [|by simplify_eq].
    destruct (st =? 200); by simplify_eq.
Qed.

(** *** The invariant holds in every state that a client can reach *)

Lemma session_inv_same_store (m m' : Machine) :
  self m' = self m → heap m' = heap m → session_inv m → session_inv m'.
Proof. unfold session_inv. intros -> ->. done. Qed.

Lemma make_request_store (m : Machine) (method url : string)
    (params : PyValue) (data : option BytesPayload) :
  self (_make_request' method url params data m).2 = self (get_session' m).2
  ∧ heap (_make_request' method url params data m).2
    = heap (get_session' m).2.
Proof.
  destruct (session_in_use_open m) as (l & s & Hget & _ & Hs & Hc).
  unfold _make_request, bind. rewrite Hget.
  unfold session_request. rewrite Hs, Hc. unfold bind, emit. simpl.
  destruct (transport s _) as [status text | msg]; simpl; [|done].
  by destruct (status =? 200).
Qed.

Lemma request_store (m : Machine) (method uri : string)
    (params payload : PyValue) :
  self (request' method uri params payload m).2 = self (get_session' m).2
  ∧ heap (request' method uri params payload m).2 = heap (get_session' m).2.
Proof.
  pose proof (make_request_store m method
                ("/" +:+ _api_version (self m) +:+ uri) params
                (Some (mkPayload (encode payload) "application/json")))
    as Hstore.
  unfold request, get_self, bind, lift, ret. simpl.
  destruct (_make_request' _ _ _ _ m) as [[[status text]|e] m1] eqn:Hrun;
    [|done].
  pose proof (make_request_returns_200 _ _ _ _ _ _ _ _ Hrun) as ->.
  done.
Qed.

Lemma session_inv_session_close (m : Machine) (l : loc) :
  session_inv m → session_inv (session_close l m).2.
Proof.
  intros Hinv l0 Hl0. destruct (Hinv l0 Hl0) as (s & Hs & Hb).
  simpl. rewrite lookup_alter. case_decide; subst; rewrite Hs; eauto.
Qed.

Lemma session_inv_step (c : Call) (m : Machine) :
  session_inv m → session_inv (step transport encode certifi_where c m).
Proof.
  intros Hinv. destruct c as [| |method uri params payload|l]; simpl.
  - by apply session_inv_get_session.
  - by apply session_inv_close.
  - destruct (request_store m method uri params payload) as [Hself Hheap].
    eapply session_inv_same_store; [done..|].
    by apply session_inv_get_session.
  - by apply session_inv_session_close.
Qed.

Lemma session_inv_run (calls : list Call) (m : Machine) :
  session_inv m → session_inv (run transport encode certifi_where calls m).
Proof.
  revert m. induction calls as [|c calls IH]; intros m Hinv; [done|].
  simpl. by apply IH, session_inv_step.
Qed.

Lemma session_inv_reachable (calls : list Call) (org_id : OrgId)
    (token : string) (headers : option (gmap string string))
    (api_host api_version : option string) (timeout : option ClientTimeout) :
  session_inv
    (run transport encode certifi_where calls
         (boot (AIOHTTPClient__init__ org_id token headers api_host
                                      api_version timeout))).
Proof. by apply session_inv_run, session_inv_boot. Qed.

End Requests.

Lemma example_session_in_use :
  session_in_use example_cafile (boot example_client) = Some example_session.
Proof. vm_compute. reflexivity. Qed.

(** C2 (as the code has it): when the server answers 200, the facade
    returns the body text of the reply, unchanged and still a string: the
    status check passes and nothing decodes the text. *)
Theorem request_200_returns_body_text
    (transport : ClientSession -> HttpRequest -> Reply)
    (encode : PyValue -> string) (certifi_where : string) (m : Machine)
    (method uri : string) (params payload : PyValue)
    (s : ClientSession) (body : string) :
  session_in_use certifi_where m = Some s →
  transport s (facade_call encode m method uri params payload)
  = Response 200 body →
  (request transport encode certifi_where method uri params payload m).1
  = Ret (VStr body).
Proof.
  intros Huse Hreply.
  rewrite (request_cases transport encode certifi_where m method uri params
             payload s Huse), Hreply.
  reflexivity.
Qed.

Lemma request_200_returns_body_text_witness :
  (request (server_replying 200 body_issue) encode_none example_cafile
           "GET" "/issues/TEST-1" VNone VNone (boot example_client)).1
  = Ret (VStr body_issue).
Proof.
  apply (request_200_returns_body_text (server_replying 200 body_issue)
           encode_none example_cafile (boot example_client)
           "GET" "/issues/TEST-1" VNone VNone example_session body_issue).
  - vm_compute. reflexivity.
  - reflexivity.
Defined.

(** C2, the claim as written, fails: the GET of [/issues/TEST-1] answered
    200 with the text [{"key":"TEST-1"}] returns that text, not the mapping
    with the key [key]. *)
Lemma request_200_does_not_decode_json :
  (request (server_replying 200 body_issue) encode_none example_cafile
           "GET" "/issues/TEST-1" VNone VNone (boot example_client)).1
  ≠ Ret (VDict [("key", VStr "TEST-1")]).
Proof. vm_compute. intros H. discriminate H. Qed.

(** C3: on the aiohttp client, a facade call answered 404 with the body
    [{"message":"not found"}] raises the generic [YaTrackerError] carrying
    the body text, and not [ObjectNotFoundError]: the executor raises before
    [_check_status] is reached, although [_check_status] alone maps 404 to
    [ObjectNotFoundError]. *)
Theorem request_404_raises_generic_error :
  (request (server_replying 404 body_not_found) encode_none example_cafile
           "GET" "/issues/TEST-1" VNone VNone (boot example_client)).1
  = Raise (YaTrackerError (VStr body_not_found))
  ∧ (request (server_replying 404 body_not_found) encode_none example_cafile
             "GET" "/issues/TEST-1" VNone VNone (boot example_client)).1
    ≠ Raise ObjectNotFoundError
  ∧ _check_status 404 (VStr body_not_found) = Raise ObjectNotFoundError.
Proof.
  split; [vm_compute; reflexivity|].
  split; [|reflexivity].
  vm_compute. intros H. discriminate H.
Qed.

(** C4: the executor hands the body text itself to [_process_exception], so
    for a reply 404 with the body [{"message":"not found"}] the error
    carries that whole text and not the value under [message]; only on a
    mapping does [_process_exception] pick [message], else [detail]. A reply
    200 is returned as the pair of status and text. *)
Theorem make_request_404_carries_raw_text :
  (_make_request (server_replying 404 body_not_found) example_cafile
                 "GET" "/v2/issues/TEST-1" VNone None
                 (boot example_client)).1
  = Raise (YaTrackerError (VStr body_not_found))
  ∧ VStr body_not_found ≠ VStr "not found"
  ∧ _process_exception 404 (VDict [("message", VStr "not found")])
    = YaTrackerError (VStr "not found")
  ∧ _process_exception 404 (VDict [("detail", VStr "gone")])
    = YaTrackerError (VStr "gone")
  ∧ (_make_request (server_replying 200 body_issue) example_cafile
                   "GET" "/v2/issues/TEST-1" VNone None
                   (boot example_client)).1
    = Ret (200, body_issue).
Proof.
  split; [vm_compute; reflexivity|].
  split; [vm_compute; intros H; discriminate H|].
  split; [reflexivity|].
  split; [reflexivity|].
  vm_compute. reflexivity.
Qed.

(** C5: on the aiohttp client the executor returns only with status 200;
    so a facade call never raises one of the four typed errors, and a reply
    with any other status, the 2xx ones included, surfaces as the generic
    [YaTrackerError] that [_process_exception] builds from the body text. *)
Theorem aiohttp_non_200_is_generic
    (transport : ClientSession -> HttpRequest -> Reply)
    (encode : PyValue -> string) (certifi_where : string) (m : Machine)
    (method uri : string) (params payload : PyValue) :
  (∀ url data status text m',
      _make_request transport certifi_where method url params data m
      = (Ret (status, text), m') → status = 200)
  ∧ (∀ e, (request transport encode certifi_where method uri params payload
             m).1 = Raise e → is_typed_error e = false)
  ∧ (∀ s status text,
      session_in_use certifi_where m = Some s →
      transport s (facade_call encode m method uri params payload)
      = Response status text →
      status ≠ 200 →
      (request transport encode certifi_where method uri params payload m).1
      = Raise (_process_exception status (VStr text))
      ∧ _process_exception status (VStr text) = YaTrackerError (VStr text)).
Proof.
  split; [|split].
  - intros url data status text m'. apply make_request_returns_200.
  - intros e.
    destruct (session_in_use_open certifi_where m) as (l & s & _ & Huse & _).
    rewrite (request_cases transport encode certifi_where m method uri params
               payload s Huse).
    destruct (transport s _) as [st tx | msg]; [|by intros [= <-]].
    destruct (st =? 200); [done | by intros [= <-]].
  - intros s status text Huse Hreply Hne. split; [|reflexivity].
    rewrite (request_cases transport encode certifi_where m method uri params
               payload s Huse), Hreply.
    by destruct (Z.eqb_spec status 200).
Qed.

Lemma aiohttp_non_200_is_generic_witness :
  (request (server_replying 201 body_issue) encode_none example_cafile
           "POST" "/issues" VNone VNone (boot example_client)).1
  = Raise (_process_exception 201 (VStr body_issue))
  ∧ _process_exception 201 (VStr body_issue)
    = YaTrackerError (VStr body_issue).
Proof.
  apply (aiohttp_non_200_is_generic (server_replying 201 body_issue)
           encode_none example_cafile (boot example_client)
           "POST" "/issues" VNone VNone) with example_session.
  - vm_compute. reflexivity.
  - reflexivity.
  - lia.
Defined.

(** ** File uploads *)

Lemma prepare_form_of_file (readable : string -> bool) (file : PyObject) :
  _prepare_form readable file
  = match _prepare_file readable file with
    | Ret f => Ret [("file", f)]
    | Raise e => Raise e
    end.
Proof. reflexivity. Qed.

(** C9: each of the three accepted shapes of file reference gives a form
    with the single field [file]: an open binary stream is passed through
    as it is, a string path and a path object are opened for binary
    reading (when the file system refuses the open, its error is what the
    call raises). Any value of another type is refused with a [TypeError]
    whose message names the type of the value. *)
Theorem prepare_form_shapes (readable : string -> bool) :
  (∀ f, _prepare_form readable (OStream f) = Ret [("file", f)])
  ∧ (∀ s, readable s = true →
          _prepare_form readable (OStr s) = Ret [("file", BufferedReader s)])
  ∧ (∀ p, readable p = true →
          _prepare_form readable (OPath p) = Ret [("file", BufferedReader p)])
  ∧ (∀ s, readable s = false →
          _prepare_form readable (OStr s) = Raise (OSError s)
          ∧ _prepare_form readable (OPath s) = Raise (OSError s))
  ∧ (∀ file, is_file_reference file = false →
             _prepare_form readable file
             = Raise (TypeError ("Not supported file type: `"
                                 +:+ type_name file +:+ "`"))).
Proof.
  split; [done|].
  split. { intros s Hs. rewrite prepare_form_of_file. simpl.
           unfold open_rb. by rewrite Hs. }
  split. { intros p Hp. rewrite prepare_form_of_file. simpl.
           unfold open_rb. by rewrite Hp. }
  split. { intros s Hs. rewrite !prepare_form_of_file. simpl.
           unfold open_rb. by rewrite Hs. }
  intros file Hfile. by destruct file.
Qed.

Lemma prepare_form_shapes_witness :
  _prepare_form only_report_readable (OStr "report.pdf")
  = Ret [("file", BufferedReader "report.pdf")]
  ∧ _prepare_form only_report_readable (OPath "missing.bin")
    = Raise (OSError "missing.bin")
  ∧ _prepare_form only_report_readable (OInt 7)
    = Raise (TypeError "Not supported file type: `int`").
Proof.
  destruct (prepare_form_shapes only_report_readable)
    as (_ & Hstr & _ & Hmissing & Hother).
  split; [|split].
  - apply Hstr. reflexivity.
  - apply (Hmissing "missing.bin"). reflexivity.
  - apply (Hother (OInt 7)). reflexivity.
Defined.

(** A path that the file system does not let the process open: the call
    returns no form. *)
Lemma prepare_form_missing_file_fails :
  ¬ ∃ form, _prepare_form only_report_readable (OStr "missing.bin") = Ret form.
Proof. intros [form H]. vm_compute in H. discriminate H. Qed.

(** ** Default headers *)

Lemma setdefault_lookup (key v : string) (d : gmap string string) (k : string) :
  setdefault key v d !! k
  = if decide (key = k) then Some (default v (d !! key)) else d !! k.
Proof.
  unfold setdefault. destruct (d !! key) as [w|] eqn:Hd.
  - case_decide; [by subst|done].
  - rewrite lookup_insert. by case_decide.
Qed.

Lemma copied_headers (headers : option (gmap string string)) :
  match headers with
  | Some h => if decide (h = ∅) then ∅ else h
  | None => ∅
  end = supplied headers.
Proof. destruct headers as [h|]; [|done]. simpl. by case_decide. Qed.

(** C10: the headers of a constructed client hold [X-Org-Id] and
    [Authorization]; each is the caller's value when the supplied mapping
    has that key, and otherwise [str(org_id)], respectively [OAuth] followed
    by the token. Every header the caller supplied is kept as it is, and no
    other key is added. *)
Theorem default_headers_keep_caller_values (org_id : OrgId) (token : string)
    (headers : option (gmap string string))
    (api_host api_version : option string) (timeout : option ClientTimeout) :
  let c := AIOHTTPClient__init__ org_id token headers api_host api_version
                                 timeout in
  _headers c !! "X-Org-Id"
  = Some (default (py_str org_id) (supplied headers !! "X-Org-Id"))
  ∧ _headers c !! "Authorization"
    = Some (default ("OAuth " +:+ token) (supplied headers !! "Authorization"))
  ∧ (∀ k v, supplied headers !! k = Some v → _headers c !! k = Some v)
  ∧ (∀ k, k ≠ "X-Org-Id" → k ≠ "Authorization" →
          _headers c !! k = supplied headers !! k).
Proof.
  simpl. rewrite copied_headers.
  split. { rewrite !setdefault_lookup. by repeat case_decide. }
  split. { rewrite !setdefault_lookup. by repeat case_decide. }
  split.
  - intros k v Hk. rewrite !setdefault_lookup.
    repeat case_decide; subst; by rewrite ?Hk.
  - intros k Hk1 Hk2. rewrite !setdefault_lookup.
    by repeat case_decide.
Qed.

Lemma default_headers_keep_caller_values_witness :
  _headers (AIOHTTPClient__init__ (OrgInt 42) "secret"
              (Some {["Authorization" := "Bearer mine"]}) None None None)
    !! "Authorization" = Some "Bearer mine"
  ∧ _headers (AIOHTTPClient__init__ (OrgInt 42) "secret"
                (Some {["Authorization" := "Bearer mine"]}) None None None)
      !! "X-Org-Id" = Some "42".
Proof.
  destruct (default_headers_keep_caller_values (OrgInt 42) "secret"
              (Some {["Authorization" := "Bearer mine"]}) None None None)
    as (Horg & _ & Hkept & _).
  split.
  - apply Hkept. vm_compute. reflexivity.
  - rewrite Horg. vm_compute. reflexivity.
Defined.

(** * Further properties of the client *)

(** ** Construction *)

Lemma or_default_nonempty (x : option string) (d : string) :
  d ≠ "" → or_default x d ≠ "".
Proof.
  intros Hd. unfold or_default. destruct x as [s|]; [|done].
  destruct (String.eqb_spec s ""); done.
Qed.

Lemma or_default_given (s d : string) :
  s ≠ "" → or_default (Some s) d = s.
Proof.
  intros Hs. unfold or_default. by destruct (String.eqb_spec s "").
Qed.

(** X1: a constructed client starts without a session, and its API version
    and base URL are never empty: a non-empty value given by the caller is
    taken as it is, while a missing or empty one gives [v2], respectively
    [https://api.tracker.yandex.net]; a missing timeout gives [total=0]. *)
Theorem init_defaults (org_id : OrgId) (token : string)
    (headers : option (gmap string string))
    (api_host api_version : option string) (timeout : option ClientTimeout) :
  let c := AIOHTTPClient__init__ org_id token headers api_host api_version
                                 timeout in
  _session c = None
  ∧ _api_version c ≠ "" ∧ _base_url c ≠ ""
  ∧ (∀ v, api_version = Some v → v ≠ "" → _api_version c = v)
  ∧ (∀ h, api_host = Some h → h ≠ "" → _base_url c = h)
  ∧ (api_version = None ∨ api_version = Some "" → _api_version c = "v2")
  ∧ (api_host = None ∨ api_host = Some "" →
     _base_url c = "https://api.tracker.yandex.net")
  ∧ _timeout c = default (mkTimeout 0) timeout.
Proof.
  simpl. split; [done|].
  split; [by apply or_default_nonempty|].
  split; [by apply or_default_nonempty|].
  split. { intros v -> Hv. by apply or_default_given. }
  split. { intros h -> Hh. by apply or_default_given. }
  split. { by intros [-> | ->]. }
  split. { by intros [-> | ->]. }
  by destruct timeout.
Qed.

Lemma init_defaults_witness :
  _api_version (AIOHTTPClient__init__ (OrgStr "org") "t" None None
                  (Some "v3") None) = "v3"
  ∧ _api_version (AIOHTTPClient__init__ (OrgStr "org") "t" None None
                    (Some "") None) = "v2".
Proof.
  split.
  - apply (init_defaults (OrgStr "org") "t" None None (Some "v3") None)
      with (v := "v3"); [reflexivity | discriminate].
  - apply (init_defaults (OrgStr "org") "t" None None (Some "") None).
    right. reflexivity.
Defined.

(** ** Error wrapping *)

Lemma dict_get_missing (items : list (string * PyValue)) (key : string) :
  (∀ k v, (k, v) ∈ items → k ≠ key) → dict_get items key = VNone.
Proof.
  induction items as [|[k v] rest IH]; intros Hmiss; [done|].
  simpl. destruct (String.eqb_spec k key) as [->|Hne].
  - exfalso. apply (Hmiss key v); [left|done].
  - apply IH. intros k' v' Hin. apply (Hmiss k' v'). by right.
Qed.

(** X2: [_process_exception] ignores the status. From a mapping it takes
    the value under [message] when that value is truthy and otherwise the
    value under [detail], whatever it is; with neither key present the error
    carries [None]. Anything that is not a mapping is carried as it is. *)
Theorem process_exception_message (status : Z) (data : PyValue) :
  (∀ status', _process_exception status' data = _process_exception status data)
  ∧ (∀ items, data = VDict items →
       truthy (dict_get items "message") = true →
       _process_exception status data
       = YaTrackerError (dict_get items "message"))
  ∧ (∀ items, data = VDict items →
       truthy (dict_get items "message") = false →
       _process_exception status data
       = YaTrackerError (dict_get items "detail"))
  ∧ (∀ items, data = VDict items →
       (∀ k v, (k, v) ∈ items → k ≠ "message" ∧ k ≠ "detail") →
       _process_exception status data = YaTrackerError VNone)
  ∧ ((∀ items, data ≠ VDict items) →
     _process_exception status data = YaTrackerError data).
Proof.
  split; [done|].
  split. { intros items -> Ht. unfold _process_exception, py_or.
           by rewrite Ht. }
  split. { intros items -> Ht. unfold _process_exception, py_or.
           by rewrite Ht. }
  split.
  - intros items -> Hmiss. unfold _process_exception, py_or.
    rewrite (dict_get_missing items "message"), (dict_get_missing items "detail");
      [done| |]; intros k v Hin; by destruct (Hmiss k v Hin).
  - intros Hnd. destruct data; try done. by destruct (Hnd items).
Qed.

Lemma process_exception_message_witness :
  _process_exception 400
    (VDict [("message", VStr ""); ("detail", VStr "bad field")])
  = YaTrackerError (VStr "bad field")
  ∧ _process_exception 500 (VDict [("code", VInt 7)]) = YaTrackerError VNone.
Proof.
  split.
  - apply (process_exception_message 400
             (VDict [("message", VStr ""); ("detail", VStr "bad field")]))
      with (items := [("message", VStr ""); ("detail", VStr "bad field")]);
      reflexivity.
  - apply (process_exception_message 500 (VDict [("code", VInt 7)]))
      with (items := [("code", VInt 7)]); [reflexivity|].
    intros k v Hin. apply list_elem_of_singleton in Hin.
    injection Hin as -> _. split; discriminate.
Defined.

(** ** Sessions over a history of calls *)

Section History.

Variable transport : ClientSession -> HttpRequest -> Reply.
Variable encode : PyValue -> string.
Variable certifi_where : string.

Abbreviation get_session' := (get_session certifi_where).
Abbreviation _make_request' := (_make_request transport certifi_where).
Abbreviation request' := (request transport encode certifi_where).
Abbreviation step' := (step transport encode certifi_where).
Abbreviation run' := (run transport encode certifi_where).
Abbreviation facade_call' := (facade_call encode).

(** *** What one call does to the store and to the trace *)

Lemma get_session_cases (m : Machine) :
  (has_open_session m = true ∧ get_session' m = (Ret (default 0%nat (_session (self m))), m)
   ∧ is_Some (_session (self m)))
  ∨ (has_open_session m = false
     ∧ get_session' m = new_session certifi_where m).
Proof.
  destruct (has_open_session m) eqn:Hopen.
  - left. split; [done|]. unfold has_open_session in Hopen.
    destruct (_session (self m)) as [l|] eqn:Hl; [|done].
    destruct (heap m !! l) as [s|] eqn:Hs; [|done].
    destruct (closed s) eqn:Hc; [done|].
    split; [|by eexists]. by apply get_session_open with s.
  - right. split; [done|]. by apply get_session_not_open.
Qed.

Lemma get_session_config (m : Machine) :
  config_of (self (get_session' m).2) = config_of (self m).
Proof.
  destruct (get_session_cases m) as [(_ & -> & _) | (_ & ->)]; done.
Qed.

Lemma get_session_frame (m : Machine) (l : loc) (s : ClientSession) :
  heap m !! l = Some s → heap (get_session' m).2 !! l = Some s.
Proof.
  intros Hs. destruct (get_session_cases m) as [(_ & -> & _) | (_ & ->)];
    [done|].
  simpl. rewrite lookup_insert_ne; [done|].
  intros <-. pose proof (new_session_fresh m) as Hfresh.
  apply Hfresh, elem_of_dom. by exists s.
Qed.

Lemma close_heap (m : Machine) (l : loc) :
  heap (close m).2 !! l
  = if decide (_session (self m) = Some l)
    then mark_closed <$> heap m !! l
    else heap m !! l.
Proof.
  unfold close. destruct (_session (self m)) as [l0|] eqn:Hl0;
    [|by rewrite decide_False].
  destruct (heap m !! l0) as [s|] eqn:Hs.
  - destruct (closed s) eqn:Hc; simpl.
    + case_decide as Heq; [|done]. injection Heq as <-. rewrite Hs. simpl.
      f_equal. destruct s. simpl in *. by subst.
    + rewrite lookup_alter. case_decide as Heq.
      * subst. by rewrite decide_True.
      * rewrite decide_False; [done|]. by intros [= ->].
  - simpl. case_decide as Heq; [|done]. injection Heq as <-. by rewrite Hs.
Qed.

Lemma make_request_trace (m : Machine) (method url : string)
    (params : PyValue) (data : option BytesPayload) :
  ∃ l, (get_session' m).1 = Ret l
       ∧ trace (_make_request' method url params data m).2
         = (trace (get_session' m).2
              ++ [EvRequest l (mkRequest method url params data)])%list.
Proof.
  destruct (session_in_use_open certifi_where m)
    as (l & s & Hget & _ & Hs & Hc).
  exists l. split; [by rewrite Hget|].
  unfold _make_request, bind. rewrite Hget.
  unfold session_request. rewrite Hs, Hc. unfold bind, emit. simpl.
  destruct (transport s _) as [status text | msg]; simpl; [|done].
  by destruct (status =? 200).
Qed.

Lemma request_trace (m : Machine) (method uri : string)
    (params payload : PyValue) :
  ∃ l, (get_session' m).1 = Ret l
       ∧ trace (request' method uri params payload m).2
         = (trace (get_session' m).2
              ++ [EvRequest l (facade_call' m method uri params payload)])%list.
Proof.
  destruct (make_request_trace m method
              ("/" +:+ _api_version (self m) +:+ uri) params
              (Some (mkPayload (encode payload) "application/json")))
    as (l & Hl & Htrace).
  exists l. split; [done|]. unfold facade_call. rewrite <- Htrace.
  unfold request, get_self, bind, lift, ret. simpl.
  destruct (_make_request' _ _ _ _ m) as [[[status text]|e] m1] eqn:Hrun;
    [|done].
  pose proof (make_request_returns_200 _ _ _ _ _ _ _ _ _ _ Hrun) as ->.
  done.
Qed.

Lemma request_leaves_open_session (m : Machine) (method uri : string)
    (params payload : PyValue) :
  ∃ l s, (get_session' m).1 = Ret l
         ∧ _session (self (request' method uri params payload m).2) = Some l
         ∧ heap (request' method uri params payload m).2 !! l = Some s
         ∧ closed s = false.
Proof.
  destruct (get_session_opens certifi_where m) as (l & s & Hr & Hl & Hs & Hc).
  destruct (request_store transport encode certifi_where m method uri params
              payload) as [Hself Hheap].
  exists l, s. by rewrite Hself, Hheap.
Qed.

Lemma step_config (c : Call) (m : Machine) :
  config_of (self (step' c m)) = config_of (self m).
Proof.
  destruct c as [| |method uri params payload|l]; simpl.
  - apply get_session_config.
  - by rewrite close_keeps_self.
  - destruct (request_store transport encode certifi_where m method uri
                params payload) as [-> _].
    apply get_session_config.
  - done.
Qed.

(** *** At most one open session *)

Lemma only_current_open_get_session (m : Machine) :
  only_current_open m → only_current_open (get_session' m).2.
Proof.
  intros Hinv.
  destruct (get_session_cases m) as [(_ & -> & _) | (Hopen & ->)]; [done|].
  intros l s Hs Hc. simpl in *.
  destruct (decide (fresh (dom (heap m)) = l)) as [<-|Hne]; [done|].
  rewrite lookup_insert_ne in Hs by done.
  pose proof (Hinv l s Hs Hc) as Hl.
  unfold has_open_session in Hopen. by rewrite Hl, Hs, Hc in Hopen.
Qed.

Lemma only_current_open_close (m : Machine) :
  only_current_open m → only_current_open (close m).2.
Proof.
  intros Hinv l s Hs Hc. rewrite close_keeps_self.
  rewrite close_heap in Hs. case_decide as Hl.
  - destruct (heap m !! l) as [s0|]; [|done]. simpl in Hs.
    injection Hs as <-. done.
  - by apply Hinv with s.
Qed.

Lemma only_current_open_session_close (m : Machine) (l : loc) :
  only_current_open m → only_current_open (session_close l m).2.
Proof.
  intros Hinv l0 s Hs Hc. simpl in *. rewrite lookup_alter in Hs.
  case_decide as Heq.
  - subst l0. destruct (heap m !! l) as [s0|]; [|done]. simpl in Hs.
    injection Hs as <-. done.
  - by apply Hinv with s.
Qed.

Lemma only_current_open_step (c : Call) (m : Machine) :
  only_current_open m → only_current_open (step' c m).
Proof.
  intros Hinv. destruct c as [| |method uri params payload|l]; simpl.
  - by apply only_current_open_get_session.
  - by apply only_current_open_close.
  - destruct (request_store transport encode certifi_where m method uri
                params payload) as [Hself Hheap].
    intros l s. rewrite Hself, Hheap.
    by apply only_current_open_get_session.
  - by apply only_current_open_session_close.
Qed.

Lemma run_invariant (P : Machine → Prop) (calls : list Call) (m : Machine) :
  (∀ c m0, P m0 → P (step' c m0)) → P m → P (run' calls m).
Proof.
  intros Hstep. revert m. induction calls as [|c calls IH]; intros m Hm;
    [done|].
  simpl. by apply IH, Hstep.
Qed.

(** X6: no call changes the configuration of the client: after any history
    of [get_session], [close], facade calls and sessions closed from
    outside, the API version, base URL, default headers and timeout are the
    ones the history started with; only the session slot moves. *)
Theorem calls_keep_configuration (calls : list Call) (m : Machine) :
  config_of (self (run' calls m)) = config_of (self m).
Proof.
  apply (run_invariant (fun m0 => config_of (self m0) = config_of (self m)));
    [|done].
  intros c m0 Hm0. by rewrite step_config.
Qed.

(** X7: whatever a constructed client has been through, the session that
    its next request uses is open and carries the base URL, the timeout and
    the default headers fixed at construction, [X-Org-Id] and
    [Authorization] among them. *)
Theorem session_in_use_carries_defaults (calls : list Call) (org_id : OrgId)
    (token : string) (supplied_headers : option (gmap string string))
    (api_host api_version : option string) (timeout0 : option ClientTimeout) :
  let c := AIOHTTPClient__init__ org_id token supplied_headers api_host
                                 api_version timeout0 in
  ∃ s, session_in_use certifi_where (run' calls (boot c)) = Some s
       ∧ closed s = false
       ∧ base_url s = _base_url c
       ∧ timeout s = _timeout c
       ∧ headers s = _headers c
       ∧ headers s !! "X-Org-Id"
         = Some (default (py_str org_id)
                         (supplied supplied_headers !! "X-Org-Id"))
       ∧ headers s !! "Authorization"
         = Some (default ("OAuth " +:+ token)
                         (supplied supplied_headers !! "Authorization")).
Proof.
  intros c. set (m := run' calls (boot c)).
  assert (session_inv m) as Hinv
    by apply session_inv_run, session_inv_boot, eq_refl.
  assert (config_of (self m) = config_of c) as Hcfg.
  { apply (run_invariant (fun m0 => config_of (self m0) = config_of c));
      [|done].
    intros call m0 Hm0. by rewrite step_config. }
  apply (session_inv_get_session certifi_where) in Hinv.
  rewrite <- (get_session_config m) in Hcfg.
  destruct (get_session_opens certifi_where m) as (l & s & Hr & Hl & Hs & Hc).
  destruct (Hinv l Hl) as (s' & Hs' & Hurl & Hhdr & Htime).
  rewrite Hs in Hs'. injection Hs' as <-.
  unfold config_of in Hcfg. injection Hcfg as _ Hcurl Hchdr Hctime.
  assert (headers s = _headers c) as Hheaders
    by (rewrite Hhdr, Hchdr; reflexivity).
  exists s. split.
  { unfold session_in_use. destruct (get_session' m) as [r m1].
    simpl in *. by subst r. }
  split; [done|].
  split; [rewrite Hurl, Hcurl; reflexivity|].
  split; [rewrite Htime, Hctime; reflexivity|].
  split; [done|]. rewrite Hheaders. unfold c. simpl.
  rewrite copied_headers, !setdefault_lookup.
  split; by repeat case_decide.
Qed.

(** X8: a client that starts in an empty store never has two open sessions:
    after any history, every session that is not closed is the one the
    client holds, so a session it has replaced is always a closed one. *)
Theorem at_most_one_open_session (calls : list Call) (c : AIOHTTPClient) :
  let m := run' calls (boot c) in
  only_current_open m
  ∧ (∀ l1 l2 s1 s2,
       heap m !! l1 = Some s1 → closed s1 = false →
       heap m !! l2 = Some s2 → closed s2 = false → l1 = l2).
Proof.
  intros m.
  assert (only_current_open m) as Hinv.
  { apply run_invariant; [apply only_current_open_step|].
    intros l s Hs. simpl in Hs. by rewrite lookup_empty in Hs. }
  split; [done|]. intros l1 l2 s1 s2 Hs1 Hc1 Hs2 Hc2.
  pose proof (Hinv l1 s1 Hs1 Hc1). pose proof (Hinv l2 s2 Hs2 Hc2).
  congruence.
Qed.

(** X9: [get_session] never touches a session that exists: each one stays
    in the store as it was, closed ones included. [close] changes at most
    the session the client holds, which it marks closed, keeps the client's
    reference to it, and removes nothing from the store. *)
Theorem get_session_close_frame (m : Machine) :
  (∀ l s, heap m !! l = Some s → heap (get_session' m).2 !! l = Some s)
  ∧ (∀ l, _session (self m) ≠ Some l → heap (close m).2 !! l = heap m !! l)
  ∧ (∀ l, _session (self m) = Some l →
          heap (close m).2 !! l = mark_closed <$> heap m !! l)
  ∧ self (close m).2 = self m
  ∧ dom (heap (close m).2) = dom (heap m).
Proof.
  split; [apply get_session_frame|].
  split. { intros l Hl. by rewrite close_heap, decide_False. }
  split. { intros l Hl. by rewrite close_heap, decide_True. }
  split; [apply close_keeps_self | apply close_keeps_dom].
Qed.

End History.

(** ** Facade calls, with their keyword arguments *)

Lemma request_kw_accepted
    (transport_kw : list (string * KwValue) -> ClientSession -> HttpRequest -> Reply)
    (encode : PyValue -> string) (certifi_where : string)
    (method uri : string) (params payload : PyValue)
    (kwargs : list (string * KwValue)) :
  duplicate_keyword kwargs = None →
  request_kw transport_kw encode certifi_where method uri params payload kwargs
  = request (transport_kw kwargs) encode certifi_where method uri params payload.
Proof. intros Hdup. unfold request_kw, request. by rewrite Hdup. Qed.

Lemma request_kw_refused
    (transport_kw : list (string * KwValue) -> ClientSession -> HttpRequest -> Reply)
    (encode : PyValue -> string) (certifi_where : string)
    (method uri : string) (params payload : PyValue)
    (kwargs : list (string * KwValue)) (k : string) (m : Machine) :
  duplicate_keyword kwargs = Some k →
  ∃ msg, request_kw transport_kw encode certifi_where method uri params
                    payload kwargs m
         = (Raise (TypeError msg), m).
Proof.
  intros Hdup. unfold request_kw, bind, get_self, raise. rewrite Hdup.
  by eexists.
Qed.

Lemma duplicate_keyword_is_explicit (kwargs : list (string * KwValue))
    (k : string) :
  duplicate_keyword kwargs = Some k ↔
  ∃ before v rest,
    kwargs = (before ++ (k, v) :: rest)%list
    ∧ k ∈ explicit_keywords
    ∧ ∀ k' v', (k', v') ∈ before → k' ∉ explicit_keywords.
Proof.
  assert (∀ key, existsb (String.eqb key) explicit_keywords = true
                 ↔ key ∈ explicit_keywords) as Hmem.
  { intros key. rewrite existsb_exists. setoid_rewrite <- list_elem_of_In.
    split.
    - intros (x & Hx & Heq). apply String.eqb_eq in Heq. by subst.
    - intros Hin. exists key. split; [done|apply String.eqb_refl]. }
  induction kwargs as [|[k0 v0] kwargs IH]; cbn [duplicate_keyword].
  - split; [done|]. intros (before & v & rest & Heq & _).
    by destruct before.
  - destruct (existsb (String.eqb k0) explicit_keywords) eqn:Hk0; cbv iota.
    + split.
      * intros [= <-]. exists [], v0, kwargs. split; [done|].
        split; [by apply Hmem|]. intros k' v' Hin. by apply elem_of_nil in Hin.
      * intros (before & v & rest & Heq & Hk & Hbefore).
        destruct before as [|[k1 v1] before]; simpl in Heq.
        { by injection Heq as -> _ _. }
        injection Heq as <- <- _.
        exfalso. apply (Hbefore k0 v0); [left|by apply Hmem].
    + etrans; [apply IH|]. split.
      * intros (before & v & rest & -> & Hk & Hbefore).
        exists ((k0, v0) :: before), v, rest. split; [done|]. split; [done|].
        intros k' v' Hin. apply elem_of_cons in Hin as [[= -> ->]|Hin].
        -- intros Hin0. apply Hmem in Hin0. congruence.
        -- by apply (Hbefore k' v').
      * intros (before & v & rest & Heq & Hk & Hbefore).
        destruct before as [|[k1 v1] before]; simpl in Heq.
        -- injection Heq as <- _ _. apply Hmem in Hk. congruence.
        -- injection Heq as _ _ ->.
           exists before, v, rest. split; [done|]. split; [done|].
           intros k' v' Hin. apply (Hbefore k' v'). by right.
Qed.

(** X3: a facade call whose extra keyword arguments repeat [method], [url],
    [params] or [data] raises [TypeError] at once and changes nothing: no
    session, no call of [session.request]. Every other facade call reaches
    [session.request] exactly once, whether it then returns or raises: the
    trace grows by the creation of a session, when the client holds no open
    one, and by a single request with the method and the parameters as
    given, the path [/{version}{uri}] and the encoded payload as a JSON
    body. The client holds that session, open, afterwards. *)
Theorem request_sends_one_call
    (transport_kw : list (string * KwValue) -> ClientSession -> HttpRequest -> Reply)
    (encode : PyValue -> string) (certifi_where : string) (m : Machine)
    (method uri : string) (params payload : PyValue)
    (kwargs : list (string * KwValue)) :
  let after := (request_kw transport_kw encode certifi_where method uri params
                           payload kwargs m).2 in
  (∀ k, duplicate_keyword kwargs = Some k →
        ∃ msg, request_kw transport_kw encode certifi_where method uri params
                          payload kwargs m
               = (Raise (TypeError msg), m))
  ∧ (duplicate_keyword kwargs = None →
     ∃ l s,
       trace after
       = (trace m
            ++ (if has_open_session m then [] else [EvSessionCreated l])
            ++ [EvRequest l
                  (mkRequest method ("/" +:+ _api_version (self m) +:+ uri)
                     params
                     (Some (mkPayload (encode payload) "application/json")))])%list
       ∧ _session (self after) = Some l
       ∧ heap after !! l = Some s
       ∧ closed s = false).
Proof.
  intros after. split; [intros k; apply request_kw_refused|].
  intros Hdup. unfold after. rewrite request_kw_accepted by done.
  destruct (request_trace (transport_kw kwargs) encode certifi_where m method
              uri params payload) as (l & Hl & Htrace).
  destruct (request_leaves_open_session (transport_kw kwargs) encode
              certifi_where m method uri params payload)
    as (l' & s & Hl' & Hsess & Hs & Hc).
  rewrite Hl in Hl'. injection Hl' as <-.
  exists l, s. split; [|done]. rewrite Htrace. unfold facade_call.
  destruct (get_session_cases certifi_where m)
    as [(-> & Hget & _) | (-> & Hget)].
  - by rewrite Hget.
  - rewrite Hget in Hl |- *. simpl in *. injection Hl as <-.
    by rewrite <- app_assoc.
Qed.

(** X4: two facade calls in a row go through the same session. Once a first
    call has got past its keyword arguments, whatever it then returned or
    raised, a second such call creates no session, leaves the client and
    the store as they are and adds only its own request to the trace. (A
    first call refused for its keyword arguments leaves no session behind:
    it changes nothing.) *)
Theorem consecutive_requests_share_session
    (transport_kw : list (string * KwValue) -> ClientSession -> HttpRequest -> Reply)
    (encode : PyValue -> string) (certifi_where : string) (m : Machine)
    (method1 uri1 : string) (params1 payload1 : PyValue)
    (kwargs1 : list (string * KwValue))
    (method2 uri2 : string) (params2 payload2 : PyValue)
    (kwargs2 : list (string * KwValue)) :
  let m1 := (request_kw transport_kw encode certifi_where method1 uri1 params1
                        payload1 kwargs1 m).2 in
  let m2 := (request_kw transport_kw encode certifi_where method2 uri2 params2
                        payload2 kwargs2 m1).2 in
  (is_Some (duplicate_keyword kwargs1) → m1 = m)
  ∧ (duplicate_keyword kwargs1 = None → duplicate_keyword kwargs2 = None →
     ∃ l, _session (self m1) = Some l
          ∧ self m2 = self m1
          ∧ heap m2 = heap m1
          ∧ trace m2
            = (trace m1
                 ++ [EvRequest l
                       (facade_call encode m method2 uri2 params2 payload2)])%list).
Proof.
  intros m1 m2. split.
  { intros [k Hk]. unfold m1.
    destruct (request_kw_refused transport_kw encode certifi_where method1 uri1
                params1 payload1 kwargs1 k m Hk) as [msg ->]. done. }
  intros Hdup1 Hdup2. unfold m2, m1. rewrite !request_kw_accepted by done.
  set (m1' := (request (transport_kw kwargs1) encode certifi_where method1 uri1
                       params1 payload1 m).2).
  destruct (request_leaves_open_session (transport_kw kwargs1) encode
              certifi_where m method1 uri1 params1 payload1)
    as (l & s & _ & Hsess & Hs & Hc). fold m1' in Hsess, Hs.
  pose proof (get_session_open certifi_where m1' l s Hsess Hs Hc) as Hget.
  destruct (request_store (transport_kw kwargs2) encode certifi_where m1'
              method2 uri2 params2 payload2) as [Hself Hheap].
  destruct (request_trace (transport_kw kwargs2) encode certifi_where m1'
              method2 uri2 params2 payload2) as (l' & Hl' & Htrace).
  rewrite Hget in Hself, Hheap, Hl', Htrace. simpl in *.
  injection Hl' as <-. exists l. split; [done|]. split; [done|].
  split; [done|]. rewrite Htrace. do 3 f_equal.
  unfold facade_call. do 3 f_equal.
  destruct (request_store (transport_kw kwargs1) encode certifi_where m
              method1 uri1 params1 payload1) as [Hself1 _].
  fold m1' in Hself1. rewrite Hself1.
  pose proof (get_session_config certifi_where m) as Hcfg.
  unfold config_of in Hcfg. congruence.
Qed.

(** X5: a facade call made after [close] reconnects by itself, provided it
    gets past its keyword arguments: it constructs a session under an
    identity that no session of the store had, and sends its request
    through it. *)
Theorem request_after_close_reconnects
    (transport_kw : list (string * KwValue) -> ClientSession -> HttpRequest -> Reply)
    (encode : PyValue -> string) (certifi_where : string) (m : Machine)
    (method uri : string) (params payload : PyValue)
    (kwargs : list (string * KwValue)) :
  duplicate_keyword kwargs = None →
  let after := (request_kw transport_kw encode certifi_where method uri params
                           payload kwargs (close m).2).2 in
  ∃ l, (l ∉ dom (heap m))
       ∧ trace after
         = (trace (close m).2
              ++ [EvSessionCreated l;
                  EvRequest l (facade_call encode m method uri params payload)])%list
       ∧ _session (self after) = Some l.
Proof.
  intros Hdup after. unfold after. rewrite request_kw_accepted by done.
  set (m1 := (close m).2).
  pose proof (close_leaves_no_open_session m) as Hopen. fold m1 in Hopen.
  pose proof (get_session_not_open certifi_where m1 Hopen) as Hget.
  destruct (request_trace (transport_kw kwargs) encode certifi_where m1 method
              uri params payload) as (l & Hl & Htrace).
  destruct (request_leaves_open_session (transport_kw kwargs) encode
              certifi_where m1 method uri params payload)
    as (l' & s & Hl' & Hsess & _).
  rewrite Hget in Hl, Hl', Htrace. simpl in *.
  injection Hl as <-. injection Hl' as <-.
  exists (fresh (dom (heap m1))). split.
  { unfold m1. rewrite close_keeps_dom. apply new_session_fresh. }
  split; [|done].
  rewrite Htrace, <- app_assoc. simpl. do 3 f_equal.
  unfold facade_call, m1. by rewrite close_keeps_self.
Qed.

Lemma request_sends_one_call_witness :
  (∃ msg, request_kw (server_replying_kw 200 body_issue) encode_none
                     example_cafile "POST" "/issues/TEST-1/attachments" VNone
                     VNone [("data", KwForm [])] (boot example_client)
          = (Raise (TypeError msg), boot example_client))
  ∧ ∃ l s,
      trace (request_kw (server_replying_kw 200 body_issue) encode_none
                        example_cafile "GET" "/issues/TEST-1" VNone VNone
                        [("allow_redirects", KwPy (VBool false))]
                        (boot example_client)).2
      = ([] ++ [EvSessionCreated l]
            ++ [EvRequest l
                  (mkRequest "GET" ("/" +:+ "v2" +:+ "/issues/TEST-1") VNone
                     (Some (mkPayload "null" "application/json")))])%list
      ∧ _session (self (request_kw (server_replying_kw 200 body_issue)
                          encode_none example_cafile "GET" "/issues/TEST-1"
                          VNone VNone [("allow_redirects", KwPy (VBool false))]
                          (boot example_client)).2) = Some l
      ∧ heap (request_kw (server_replying_kw 200 body_issue) encode_none
                example_cafile "GET" "/issues/TEST-1" VNone VNone
                [("allow_redirects", KwPy (VBool false))]
                (boot example_client)).2 !! l = Some s
      ∧ closed s = false.
Proof.
  split.
  - apply (request_sends_one_call (server_replying_kw 200 body_issue)
             encode_none example_cafile (boot example_client)
             "POST" "/issues/TEST-1/attachments" VNone VNone
             [("data", KwForm [])]) with "data".
    reflexivity.
  - apply (request_sends_one_call (server_replying_kw 200 body_issue)
             encode_none example_cafile (boot example_client)
             "GET" "/issues/TEST-1" VNone VNone
             [("allow_redirects", KwPy (VBool false))]).
    reflexivity.
Defined.

Lemma consecutive_requests_share_session_witness :
  ∃ l,
    trace (request_kw (server_replying_kw 404 body_not_found) encode_none
             example_cafile "GET" "/issues/TEST-2" VNone VNone []
             (request_kw (server_replying_kw 404 body_not_found) encode_none
                example_cafile "GET" "/issues/TEST-1" VNone VNone []
                (boot example_client)).2).2
    = (trace (request_kw (server_replying_kw 404 body_not_found) encode_none
                example_cafile "GET" "/issues/TEST-1" VNone VNone []
                (boot example_client)).2
         ++ [EvRequest l
               (facade_call encode_none (boot example_client) "GET"
                  "/issues/TEST-2" VNone VNone)])%list.
Proof.
  destruct (consecutive_requests_share_session
              (server_replying_kw 404 body_not_found) encode_none
              example_cafile (boot example_client)
              "GET" "/issues/TEST-1" VNone VNone []
              "GET" "/issues/TEST-2" VNone VNone []) as [_ Hshare].
  destruct Hshare as (l & _ & _ & _ & Htrace); [reflexivity..|].
  exists l. exact Htrace.
Defined.

Lemma request_after_close_reconnects_witness :
  ∃ l, (l ∉ dom (heap example_connected))
       ∧ _session
           (self (request_kw (server_replying_kw 200 body_issue) encode_none
                    example_cafile "GET" "/issues/TEST-1" VNone VNone []
                    (close example_connected).2).2) = Some l.
Proof.
  destruct (request_after_close_reconnects
              (server_replying_kw 200 body_issue) encode_none example_cafile
              example_connected "GET" "/issues/TEST-1" VNone VNone [])
    as (l & Hfresh & _ & Hsess); [reflexivity|].
  exists l. split; [exact Hfresh | exact Hsess].
Defined.

Lemma at_most_one_open_session_witness :
  _session
    (self (run (server_replying 200 body_issue) encode_none example_cafile
               [CallGetSession; CallClose; CallGetSession]
               (boot example_client)))
  = Some 1%nat.
Proof.
  destruct (at_most_one_open_session (server_replying 200 body_issue)
              encode_none example_cafile
              [CallGetSession; CallClose; CallGetSession]
              example_client) as [Hcurrent _].
  apply (Hcurrent 1%nat example_session).
  - vm_compute. reflexivity.
  - reflexivity.
Defined.

Lemma get_session_close_frame_witness :
  heap (get_session example_cafile (close example_connected).2).2 !! 0%nat
  = Some (mark_closed example_session).
Proof.
  apply (get_session_close_frame example_cafile (close example_connected).2).
  vm_compute. reflexivity.
Defined.

(** ** File uploads, the other way round *)

(** X11: when [_prepare_form] returns, its argument was a string path, a
    path object or a stream, and the form has exactly one field, named
    [file]. It raises [TypeError] exactly for the other types, and anything
    else it raises is the error of opening the given path. The file system
    is consulted for paths only: a stream is never reopened. *)
Theorem prepare_form_outcomes (readable : string -> bool) (file : PyObject) :
  (∀ form, _prepare_form readable file = Ret form →
           is_file_reference file = true ∧ ∃ f, form = [("file", f)])
  ∧ (∀ msg, _prepare_form readable file = Raise (TypeError msg)
            ↔ is_file_reference file = false
              ∧ msg = "Not supported file type: `" +:+ type_name file +:+ "`")
  ∧ (∀ e, _prepare_form readable file = Raise e →
          is_file_reference file = true →
          ∃ p, e = OSError p ∧ readable p = false
               ∧ (file = OStr p ∨ file = OPath p))
  ∧ (∀ readable' f, file = OStream f →
          _prepare_form readable' file = _prepare_form readable file).
Proof.
  split; [|split; [|split]].
  - intros form Hform. destruct file; try done; split; try done;
      unfold _prepare_form, _prepare_file, open_rb in Hform;
      try destruct (readable _); simplify_eq; by eexists.
  - intros msg. destruct file; unfold _prepare_form, _prepare_file, open_rb;
      try destruct (readable _); simpl; split;
      try (intros [Hf Hm]); try intros Heq; simplify_eq; done.
  - intros e He Href. destruct file; try done;
      unfold _prepare_form, _prepare_file, open_rb in He;
      try destruct (readable _) eqn:Hr; simplify_eq; eauto.
  - by intros readable' f ->.
Qed.

Lemma prepare_form_outcomes_witness :
  is_file_reference (OPath "report.pdf") = true
  ∧ ∃ f, [("file", BufferedReader "report.pdf")] = [("file", f)].
Proof.
  apply (prepare_form_outcomes only_report_readable (OPath "report.pdf")).
  reflexivity.
Defined.

(** ** Headers handed from one client to the next *)

Lemma setdefault_present (key v : string) (d : gmap string string) :
  is_Some (d !! key) → setdefault key v d = d.
Proof. intros [w Hw]. unfold setdefault. by rewrite Hw. Qed.

Lemma init_headers_have_defaults (org_id : OrgId) (token : string)
    (given : option (gmap string string)) (api_host api_version : option string) :
  is_Some (_headers (BaseClient__init__ org_id token given api_host api_version)
             !! "X-Org-Id")
  ∧ is_Some (_headers (BaseClient__init__ org_id token given api_host
                         api_version) !! "Authorization").
Proof.
  simpl. rewrite !setdefault_lookup. split; by repeat case_decide.
Qed.

Lemma init_headers_complete (org_id : OrgId) (token : string)
    (h : gmap string string) (api_host api_version : option string) :
  is_Some (h !! "X-Org-Id") → is_Some (h !! "Authorization") →
  _headers (BaseClient__init__ org_id token (Some h) api_host api_version) = h.
Proof.
  intros Horg Hauth. unfold BaseClient__init__. simpl.
  rewrite decide_False.
  - rewrite (setdefault_present "X-Org-Id") by done.
    by rewrite setdefault_present.
  - intros ->. rewrite lookup_empty in Horg. by destruct Horg.
Qed.

(** X12: the headers of a constructed client are complete: a second client
    constructed with them as its [headers] argument gets the very same
    headers, whatever organisation and token it is given, since both
    defaults are already present and are not overwritten. *)
Theorem init_headers_idempotent (org_id org_id' : OrgId) (token token' : string)
    (given : option (gmap string string))
    (api_host api_version api_host' api_version' : option string)
    (timeout0 timeout1 : option ClientTimeout) :
  let c := AIOHTTPClient__init__ org_id token given api_host api_version
                                 timeout0 in
  let c' := AIOHTTPClient__init__ org_id' token' (Some (_headers c))
                                  api_host' api_version' timeout1 in
  _headers c' = _headers c
  ∧ _headers c' !! "X-Org-Id" = _headers c !! "X-Org-Id"
  ∧ _headers c' !! "Authorization" = _headers c !! "Authorization".
Proof.
  intros c c'.
  destruct (init_headers_have_defaults org_id token given api_host api_version)
    as [Horg Hauth].
  assert (_headers c' = _headers c) as Heq; [|by rewrite Heq].
  by apply init_headers_complete.
Qed.
